(** * finia: the [fintrack_desktop] convenience launcher

    A shallow embedding of [fintrack_desktop.py] and of the part of the
    Python runtime its behaviour depends on, followed by the properties
    of the launcher.

    The launcher is a module body of four statements:

    - [_repo_root] : [Path(__file__).resolve().parents[1]];
    - [sys.path.insert(0, str(_repo_root()))];
    - [from desktop.fintrack_desktop.app import main];
    - [if __name__ == "__main__": raise SystemExit(main())].

    The application package [desktop.fintrack_desktop.app] is not part of
    the launcher: the import system and the entry point it yields are
    parameters of the model (record [host]). *)

From stdpp Require Import base numbers list strings pretty.

Open Scope string_scope.
Open Scope list_scope.
Open Scope Z_scope.

(** ** Python values, exceptions and the effect monad *)

(** The values [main()] may return. [VBool] is kept apart from [VInt]
    although [bool] is a subclass of [int]; [VObj] is any other object,
    carried with the text [str()] gives for it. *)
Inductive value :=
  | VNone
  | VBool (b : bool)
  | VInt (n : Z)
  | VStr (s : string)
  | VObj (str : string).

(** The exceptions the model distinguishes. [SystemExit] carries its
    [code]; [Exception] stands for every exception class that is neither
    [SystemExit] nor one of the others listed. *)
Inductive exn :=
  | SystemExit (code : value)
  | KeyboardInterrupt
  | IndexError (idx : Z)
  | ModuleNotFoundError (name : string)
  | ImportError (msg : string)
  | Exception (cls msg : string).

Inductive result (A : Type) :=
  | Ok (a : A)
  | Raise (e : exn).
Arguments Ok {A} a.
Arguments Raise {A} e.

(** The process-wide state the launcher can touch or observe:
    [sys.path] and what has been written to the standard error stream. *)
Record world := World {
  sys_path : list string;
  stderr : list string
}.

Definition set_sys_path (p : list string) (w : world) : world :=
  {| sys_path := p; stderr := stderr w |}.

Definition write_stderr (line : string) (w : world) : world :=
  {| sys_path := sys_path w; stderr := stderr w ++ [line] |}.

(** A Python computation: it runs in a world, and either returns a value
    or raises, leaving a world behind in both cases. *)
Definition Py (A : Type) : Type := world → result A * world.

Definition ret {A} (a : A) : Py A := λ w, (Ok a, w).

Definition raise {A} (e : exn) : Py A := λ w, (Raise e, w).

Definition bind {A B} (m : Py A) (k : A → Py B) : Py B :=
  λ w, match m w with
       | (Ok a, w') => k a w'
       | (Raise e, w') => (Raise e, w')
       end.

Definition lift {A} (r : result A) : Py A := λ w, (r, w).

Definition modify (f : world → world) : Py unit := λ w, (Ok (), f w).

Declare Scope py_scope.
Delimit Scope py_scope with py.
Notation "x <- m ;; k" := (bind m (λ x, k))
  (at level 100, m at next level, right associativity) : py_scope.
Notation "m ;;; k" := (bind m (λ _, k))
  (at level 100, right associativity) : py_scope.
Open Scope py_scope.

(** A zero-argument callable, such as the application's [main]. *)
Definition callable : Type := Py value.

(** ** pathlib *)

(** A parsed path: its anchor (drive and root, ["/"] for an absolute
    POSIX path) and the components after it ([_tail] in pathlib). *)
Record Path := MkPath {
  anchor : string;
  tail : list string
}.

Definition sep : string := "/".

Fixpoint join (s : string) (l : list string) : string :=
  match l with
  | [] => EmptyString
  | [x] => x
  | x :: l' => x +:+ s +:+ join s l'
  end.

(** [str(path)]. *)
Definition Path_str (p : Path) : string :=
  match anchor p, tail p with
  | EmptyString, [] => "."
  | a, t => a +:+ join sep t
  end.

(** [path.parent]: the path without its last component; a path with no
    component is its own parent. *)
Definition parent (p : Path) : Path :=
  match tail p with
  | [] => p
  | t => {| anchor := anchor p; tail := removelast t |}
  end.

(** [path.parents[idx]] (pathlib's [_PathParents.__getitem__]):
<<
    if idx >= len(self) or idx < -len(self): raise IndexError(idx)
    if idx < 0: idx += len(self)
    return from_parsed_parts(drv, root, tail[:-idx - 1])
>>
    where [len(self)] is the number of components. *)
Definition parents_getitem (p : Path) (idx : Z) : result Path :=
  let len := Z.of_nat (length (tail p)) in
  if (len <=? idx) || (idx <? - len) then Raise (IndexError idx)
  else
    let idx' := if idx <? 0 then idx + len else idx in
    Ok {| anchor := anchor p;
          tail := take (Z.to_nat (len - idx' - 1)) (tail p) |}.

(** ** list.insert *)

(** [l.insert(where, v)] (CPython's [ins1]): a negative index counts from
    the end, and an index out of range is clamped. *)
Definition list_insert {A} (where_ : Z) (v : A) (l : list A) : list A :=
  let n := Z.of_nat (length l) in
  let i := if where_ <? 0 then Z.max 0 (where_ + n) else Z.min where_ n in
  take (Z.to_nat i) l ++ v :: drop (Z.to_nat i) l.

(** [sys.path.insert(where, s)]. *)
Definition sys_path_insert (where_ : Z) (s : string) : Py unit :=
  modify (λ w, set_sys_path (list_insert where_ s (sys_path w)) w).

(** ** The launcher *)

(** What the launcher takes from its surroundings: the location of its
    own file, the file system's [resolve] (absolute path, symlinks
    followed), and the import system, which runs in the current world
    (it reads [sys.path]) and yields the imported object or raises. *)
Record host := Host {
  file : Path;
  resolve : Path → Path;
  import_from : string → string → Py callable
}.

(** [def _repo_root() -> Path:
        return Path(__file__).resolve().parents[1]] *)
Definition _repo_root (h : host) : Py Path :=
  lift (parents_getitem (resolve h (file h)) 1).

(** The module's namespace once its body has run. *)
Record namespace := Namespace {
  ns_main : callable
}.

(** Line 18: [sys.path.insert(0, str(_repo_root()))]. *)
Definition path_setup (h : host) : Py unit :=
  root <- _repo_root h ;;
  sys_path_insert 0 (Path_str root).

(** Lines 20 to 24: the import of the entry point and, when the module
    runs as the main script, [raise SystemExit(main())]. *)
Definition import_and_run (h : host) (name : string) : Py namespace :=
  main <- import_from h "desktop.fintrack_desktop.app" "main" ;;
  if String.eqb name "__main__" then
    (v <- main ;; raise (SystemExit v))
  else
    ret {| ns_main := main |}.

(** The module body, run with [__name__] bound to [name]. *)
Definition fintrack_desktop (h : host) (name : string) : Py namespace :=
  path_setup h ;;;
  import_and_run h name.

(** The path setup invoked [n] times in a row in one process. *)
Fixpoint repeat_setup (h : host) (n : nat) : Py unit :=
  match n with
  | O => ret ()
  | S n' => path_setup h ;;; repeat_setup h n'
  end.

(** ** The interpreter around the launcher *)

(** CPython turns the [code] of an uncaught [SystemExit] into the
    argument of C's [exit] ([handle_system_exit]): [None] is 0, an [int]
    goes through [(int)PyLong_AsLong(code)], anything else is written to
    the standard error stream and gives 1. The C types are those of an
    LP64 platform. *)
Definition LONG_MIN : Z := - 2 ^ 63.
Definition LONG_MAX : Z := 2 ^ 63 - 1.

(** [PyLong_AsLong]: -1 (and a pending [OverflowError], discarded by
    the caller) when the integer does not fit a C [long]. *)
Definition PyLong_AsLong (n : Z) : Z :=
  if (LONG_MIN <=? n) && (n <=? LONG_MAX) then n else -1.

(** The cast of a [long] to a 32-bit [int]. *)
Definition c_int (n : Z) : Z := (n + 2 ^ 31) mod 2 ^ 32 - 2 ^ 31.

(** [str(v)] for the values that are neither [None] nor an [int]. *)
Definition value_str (v : value) : string :=
  match v with
  | VStr s | VObj s => s
  | _ => EmptyString
  end.

Definition handle_system_exit (code : value) : world → Z * world :=
  λ w, match code with
       | VNone => (0, w)
       | VBool b => (if b then 1 else 0, w)
       | VInt n => (c_int (PyLong_AsLong n), w)
       | VStr _ | VObj _ => (1, write_stderr (value_str code) w)
       end.

(** The last line of the report printed for an uncaught exception: the
    class name, followed by [": "] and [str()] of the exception when
    that is not empty. *)
Definition report_line (cls msg : string) : string :=
  match msg with
  | EmptyString => cls
  | _ => cls +:+ ": " +:+ msg
  end.

Definition exn_report (e : exn) : string :=
  match e with
  | SystemExit _ => "SystemExit"
  | KeyboardInterrupt => "KeyboardInterrupt"
  | IndexError idx => report_line "IndexError" (pretty idx)
  | ModuleNotFoundError name =>
      report_line "ModuleNotFoundError" ("No module named '" +:+ name +:+ "'")
  | ImportError msg => report_line "ImportError" msg
  | Exception cls msg => report_line cls msg
  end.

(** [python3 -m fintrack_desktop]: the module body runs with [__name__]
    equal to ["__main__"]; the interpreter then calls [exit] with 0 when
    the body ends, with the code of an uncaught [SystemExit], and with 1
    after any other uncaught exception, which it reports on the standard
    error stream; after an uncaught [KeyboardInterrupt] the process ends
    through SIGINT, which a shell reads as 130. *)
Definition run_python (h : host) (w : world) : Z * world :=
  match fintrack_desktop h "__main__" w with
  | (Ok _, w') => (0, w')
  | (Raise (SystemExit code), w') => handle_system_exit code w'
  | (Raise KeyboardInterrupt, w') => (130, write_stderr (exn_report KeyboardInterrupt) w')
  | (Raise e, w') => (1, write_stderr (exn_report e) w')
  end.

(** The status a POSIX parent reads for [exit(code)]: its low 8 bits. *)
Definition wait_status (code : Z) : Z := Z.land code 255.

(** The exit status of the process that ran the launcher. *)
Definition exit_status (h : host) (w : world) : Z :=
  wait_status (run_python h w).1.

(** Whether a value is an instance of [int] ([bool] is a subclass). *)
Definition is_int (v : value) : bool :=
  match v with
  | VInt _ | VBool _ => true
  | _ => false
  end.

Definition is_SystemExit (e : exn) : bool :=
  match e with
  | SystemExit _ => true
  | _ => false
  end.

Definition is_import_failure (e : exn) : bool :=
  match e with
  | ModuleNotFoundError _ | ImportError _ => true
  | _ => false
  end.

(** External code that leaves [sys.path] as it found it: the import of
    the application and every entry point the import may yield. *)
Definition keeps_sys_path {A} (m : Py A) : Prop :=
  ∀ w, sys_path (m w).2 = sys_path w.

Definition extern_keeps_sys_path (h : host) : Prop :=
  ∀ m n w, sys_path (import_from h m n w).2 = sys_path w ∧
    ∀ f, (import_from h m n w).1 = Ok f → keeps_sys_path f.

(** External code that writes nothing to the standard error stream. *)
Definition keeps_stderr {A} (m : Py A) : Prop :=
  ∀ w, stderr (m w).2 = stderr w.

Definition extern_keeps_stderr (h : host) : Prop :=
  ∀ m n w, stderr (import_from h m n w).2 = stderr w ∧
    ∀ f, (import_from h m n w).1 = Ok f → keeps_stderr f.

(** The codes of [SystemExit] with which the process ends in status 0. *)
Definition zero_code (code : value) : Prop :=
  code = VNone ∨ code = VBool false ∨
  ∃ n, code = VInt n ∧ LONG_MIN ≤ n ≤ LONG_MAX ∧ n mod 256 = 0.

(** ** A concrete installation *)

(** The repository checked out at [/home/user/finia], the launcher in
    its [frontend/] directory, no symlinks. The application package is
    found when the repository root is on [sys.path]. *)
Module Install.

Definition launcher_file : Path :=
  {| anchor := "/";
     tail := ["home"; "user"; "finia"; "frontend"; "fintrack_desktop.py"] |}.

Definition import_app (main : callable) (m n : string) : Py callable :=
  λ w,
    if existsb (String.eqb "/home/user/finia") (sys_path w) then
      if String.eqb m "desktop.fintrack_desktop.app" then
        if String.eqb n "main" then (Ok main, w)
        else (Raise (ImportError ("cannot import name " +:+ n)), w)
      else (Raise (ModuleNotFoundError m), w)
    else (Raise (ModuleNotFoundError "desktop"), w).

(** The installation whose application entry point is [main]. *)
Definition installed (main : callable) : host :=
  {| file := launcher_file; resolve := λ p, p; import_from := import_app main |}.

(** The launcher copied to the file system's root directory. *)
Definition at_fs_root (main : callable) : host :=
  {| file := {| anchor := "/"; tail := ["fintrack_desktop.py"] |};
     resolve := λ p, p;
     import_from := import_app main |}.

(** The application package missing altogether. *)
Definition no_app : host :=
  {| file := launcher_file;
     resolve := λ p, p;
     import_from := λ m _, raise (ModuleNotFoundError "desktop") |}.

Definition w0 : world :=
  {| sys_path := ["/home/user/finia/frontend"; "/usr/lib/python3.12"]; stderr := [] |}.

(** An entry point that would leave traces: it writes to the standard
    error stream and then exits with status 3. *)
Definition noisy_main : callable :=
  modify (write_stderr "started") ;;; raise (SystemExit (VInt 3)).

End Install.

(** ** Properties *)

(** *** The model on the concrete installation *)

Example repo_root_installed :
  (_repo_root (Install.installed (ret VNone)) Install.w0).1
  = Ok {| anchor := "/"; tail := ["home"; "user"; "finia"] |}.
Proof. reflexivity. Qed.

Example path_setup_installed :
  sys_path (path_setup (Install.installed (ret VNone)) Install.w0).2
  = ["/home/user/finia"; "/home/user/finia/frontend"; "/usr/lib/python3.12"].
Proof. reflexivity. Qed.

(** Directly under the root directory there is no second ancestor:
    [parents[1]] raises, although [parent.parent] is ["/"]. *)
Example repo_root_at_fs_root :
  run_python (Install.at_fs_root (ret VNone)) Install.w0
  = (1, write_stderr "IndexError: 1" Install.w0) ∧
  Path_str (parent (parent (file (Install.at_fs_root (ret VNone))))) = "/".
Proof. split; reflexivity. Qed.

Example report_texts :
  exn_report (ModuleNotFoundError "desktop")
  = "ModuleNotFoundError: No module named 'desktop'" ∧
  exn_report (Exception "RuntimeError" EmptyString) = "RuntimeError" ∧
  exn_report (IndexError 1) = "IndexError: 1".
Proof. repeat split; reflexivity. Qed.

Example list_insert_indices :
  list_insert 0 9 [1; 2; 3] = [9; 1; 2; 3] ∧
  list_insert (-1) 9 [1; 2; 3] = [1; 2; 9; 3] ∧
  list_insert 7 9 [1; 2; 3] = [1; 2; 3; 9] ∧
  list_insert (-7) 9 [1; 2; 3] = [9; 1; 2; 3].
Proof. repeat split; reflexivity. Qed.

Example exit_statuses :
  exit_status (Install.installed (ret (VInt 0))) Install.w0 = 0 ∧
  exit_status (Install.installed (ret (VInt 2))) Install.w0 = 2 ∧
  exit_status (Install.installed (ret (VInt (-1)))) Install.w0 = 255 ∧
  exit_status (Install.installed (ret (VInt (2 ^ 64)))) Install.w0 = 255 ∧
  exit_status (Install.installed (ret (VBool true))) Install.w0 = 1 ∧
  exit_status (Install.installed Install.noisy_main) Install.w0 = 3.
Proof. repeat split; reflexivity. Qed.

(** *** Lists and paths *)

Lemma removelast_take {A} (l : list A) :
  removelast l = take (length l - 1) l.
Proof.
  induction l as [|a l IH]; [done|].
  destruct l as [|b l]; [done|].
  change (removelast (a :: b :: l)) with (a :: removelast (b :: l)).
  rewrite IH. cbn [length]. rewrite Nat.sub_succ, Nat.sub_0_r.
  replace (S (length l) - 1)%nat with (length l) by lia. done.
Qed.

Lemma parent_tail (p : Path) : tail (parent p) = removelast (tail p).
Proof. unfold parent. destruct (tail p) eqn:E; [by rewrite E|done]. Qed.

Lemma parent_anchor (p : Path) : anchor (parent p) = anchor p.
Proof. unfold parent. by destruct (tail p). Qed.

Lemma Path_eq (p q : Path) : anchor p = anchor q → tail p = tail q → p = q.
Proof. destruct p, q; simpl; congruence. Qed.

(** Where the second ancestor exists, [parents[1]] is the parent of the
    parent. *)
Lemma parents_1_parent (p : Path) :
  (2 ≤ length (tail p))%nat →
  parents_getitem p 1 = Ok (parent (parent p)).
Proof.
  intros Hlen. unfold parents_getitem.
  destruct (Z.leb_spec (Z.of_nat (length (tail p))) 1); [lia|].
  destruct (Z.ltb_spec 1 (- Z.of_nat (length (tail p)))); [lia|].
  cbn [orb]. destruct (Z.ltb_spec 1 0); [lia|].
  f_equal. apply Path_eq; cbn [anchor tail].
  - by rewrite !parent_anchor.
  - rewrite !parent_tail, !removelast_take, length_take, take_take.
    f_equal. lia.
Qed.

Lemma parents_1_short (p : Path) :
  (length (tail p) < 2)%nat →
  parents_getitem p 1 = Raise (IndexError 1).
Proof.
  intros Hlen. unfold parents_getitem.
  destruct (Z.leb_spec (Z.of_nat (length (tail p))) 1); [done|lia].
Qed.

Lemma list_insert_0 {A} (v : A) (l : list A) : list_insert 0 v l = v :: l.
Proof.
  unfold list_insert. destruct (Z.ltb_spec 0 0); [lia|].
  rewrite Z.min_l by lia. done.
Qed.

Lemma set_sys_path_twice (p q : list string) (w : world) :
  set_sys_path p (set_sys_path q w) = set_sys_path p w.
Proof. done. Qed.

(** *** The path setup *)

(** With a root computed, the path setup returns normally and its whole
    effect is one new entry in front of [sys.path]. *)
Lemma path_setup_ok (h : host) (w : world) (root : Path) :
  parents_getitem (resolve h (file h)) 1 = Ok root →
  path_setup h w = (Ok (), set_sys_path (Path_str root :: sys_path w) w).
Proof.
  intros Hroot. unfold path_setup, bind, _repo_root, lift. rewrite Hroot.
  unfold sys_path_insert, modify. by rewrite list_insert_0.
Qed.

(** Without one, it raises and leaves the world as it was. *)
Lemma path_setup_raise (h : host) (w : world) (e : exn) :
  parents_getitem (resolve h (file h)) 1 = Raise e →
  path_setup h w = (Raise e, w).
Proof.
  intros Hroot. unfold path_setup, bind, _repo_root, lift. by rewrite Hroot.
Qed.

(** C1. In every execution, the repository root the launcher computes is
    the parent of the parent of its own resolved file location; the
    computation fails (with [IndexError], the world untouched) exactly
    when that location has fewer than two components, so that no
    ancestor two levels up exists. *)
Theorem repo_root_parent_of_parent (h : host) (w : world) :
  let location := resolve h (file h) in
  match _repo_root h w with
  | (Ok root, w') =>
      root = parent (parent location) ∧ w' = w ∧
      (2 ≤ length (tail location))%nat
  | (Raise e, w') =>
      e = IndexError 1 ∧ w' = w ∧ (length (tail location) < 2)%nat
  end.
Proof.
  intros location. subst location. unfold _repo_root, lift.
  set (location := resolve h (file h)).
  destruct (le_lt_dec 2 (length (tail location))) as [Hlen|Hlen].
  - by rewrite (parents_1_parent location Hlen).
  - by rewrite (parents_1_short location Hlen).
Qed.

(** The search path when the module body ends, under any name and
    however it ends, for an application that leaves [sys.path] alone. *)
Lemma body_sys_path (h : host) (name : string) (w : world) (root : Path) :
  parents_getitem (resolve h (file h)) 1 = Ok root →
  extern_keeps_sys_path h →
  sys_path (fintrack_desktop h name w).2 = Path_str root :: sys_path w.
Proof.
  intros Hroot Hext. unfold fintrack_desktop, bind.
  rewrite (path_setup_ok _ _ _ Hroot).
  set (w' := set_sys_path (Path_str root :: sys_path w) w).
  change (Path_str root :: sys_path w) with (sys_path w').
  unfold import_and_run, bind.
  destruct (Hext "desktop.fintrack_desktop.app" "main" w') as [Himp Hmain].
  destruct (import_from h _ _ w') as [[main|e] w1]; cbn [fst snd] in Himp, Hmain;
    [|exact Himp].
  destruct (String.eqb name "__main__"); [|exact Himp].
  pose proof (Hmain main eq_refl w1) as Hcall.
  destruct (main w1) as [[v|e] w2]; unfold raise; cbn [snd] in Hcall |- *;
    congruence.
Qed.

Lemma keeps_sys_path_ret {A} (a : A) : keeps_sys_path (ret a).
Proof. done. Qed.

Lemma installed_keeps_sys_path (v : value) :
  extern_keeps_sys_path (Install.installed (ret v)).
Proof.
  intros m n w. cbn [import_from Install.installed]. unfold Install.import_app.
  destruct (existsb _ _); [|done].
  destruct (String.eqb m _); [|done].
  destruct (String.eqb n _); [|done].
  split; [done|]. intros f [= <-]. apply keeps_sys_path_ret.
Qed.

(** C2. After the launcher has run, the root it computed is at index 0
    of [sys.path] and every entry that was there before follows it (the
    entry of index [i] is at index [i + 1]). This holds of the world the
    module body leaves, under any name and however the body ends, for an
    application whose import and entry point leave [sys.path] alone; and
    it holds already of the world the path setup leaves, in which the
    import of the application runs. *)
Theorem root_at_front (h : host) (name : string) (w : world) (root : Path) :
  parents_getitem (resolve h (file h)) 1 = Ok root →
  extern_keeps_sys_path h →
  sys_path (fintrack_desktop h name w).2 !! 0%nat = Some (Path_str root) ∧
  (∀ i : nat, sys_path (fintrack_desktop h name w).2 !! S i = sys_path w !! i) ∧
  ∃ w', path_setup h w = (Ok (), w') ∧
    sys_path w' !! 0%nat = Some (Path_str root) ∧
    (∀ i : nat, sys_path w' !! S i = sys_path w !! i) ∧
    fintrack_desktop h name w = import_and_run h name w'.
Proof.
  intros Hroot Hext.
  rewrite (body_sys_path h name w root Hroot Hext).
  split; [done|]. split; [done|].
  eexists. split; [by apply path_setup_ok|].
  split; [done|]. split; [done|].
  unfold fintrack_desktop, bind. by rewrite (path_setup_ok _ _ _ Hroot).
Qed.

Lemma root_at_front_witness :
  sys_path (fintrack_desktop (Install.installed (ret VNone)) "__main__"
              Install.w0).2 !! 0%nat
  = Some "/home/user/finia" ∧
  (∀ i : nat,
     sys_path (fintrack_desktop (Install.installed (ret VNone)) "__main__"
                 Install.w0).2 !! S i
     = sys_path Install.w0 !! i) ∧
  ∃ w', path_setup (Install.installed (ret VNone)) Install.w0 = (Ok (), w') ∧
    sys_path w' !! 0%nat = Some "/home/user/finia" ∧
    (∀ i : nat, sys_path w' !! S i = sys_path Install.w0 !! i) ∧
    fintrack_desktop (Install.installed (ret VNone)) "__main__" Install.w0
    = import_and_run (Install.installed (ret VNone)) "__main__" w'.
Proof.
  apply (root_at_front (Install.installed (ret VNone)) "__main__" Install.w0
           {| anchor := "/"; tail := ["home"; "user"; "finia"] |}).
  - reflexivity.
  - apply installed_keeps_sys_path.
Defined.

(** C8. The launcher's own effect on the world is one new entry in front
    of [sys.path] and nothing else. The entries that were there stay,
    unchanged and in their order, each one position further back; and as
    long as the application (its import and its entry point) leaves
    [sys.path] alone, this is still the search path when the launcher
    ends, however it ends. *)
Theorem sys_path_only_prepended (h : host) (name : string) (w : world) (root : Path) :
  parents_getitem (resolve h (file h)) 1 = Ok root →
  extern_keeps_sys_path h →
  path_setup h w = (Ok (), set_sys_path (Path_str root :: sys_path w) w) ∧
  sys_path (fintrack_desktop h name w).2 = Path_str root :: sys_path w ∧
  (∀ (i : nat) (s : string), sys_path w !! i = Some s →
     sys_path (fintrack_desktop h name w).2 !! S i = Some s) ∧
  length (sys_path (fintrack_desktop h name w).2) = S (length (sys_path w)).
Proof.
  intros Hroot Hext.
  assert (Hend : sys_path (fintrack_desktop h name w).2 = Path_str root :: sys_path w).
  { unfold fintrack_desktop, bind. rewrite (path_setup_ok _ _ _ Hroot).
    set (w' := set_sys_path (Path_str root :: sys_path w) w).
    unfold import_and_run, bind.
    destruct (Hext "desktop.fintrack_desktop.app" "main" w') as [Himp Hmain].
    destruct (import_from h _ _ w') as [[main|e] w1]; [|exact Himp].
    cbn [fst snd] in Himp, Hmain.
    destruct (String.eqb name "__main__"); [|exact Himp].
    specialize (Hmain main eq_refl w1).
    destruct (main w1) as [[v|e] w2]; unfold raise; cbn [snd] in Hmain |- *;
      by rewrite Hmain. }
  split; [by apply path_setup_ok|].
  split; [exact Hend|]. rewrite Hend. split; done.
Qed.

Lemma sys_path_only_prepended_witness :
  let h := Install.installed (ret (VInt 0)) in
  path_setup h Install.w0
  = (Ok (), set_sys_path ("/home/user/finia" :: sys_path Install.w0) Install.w0) ∧
  sys_path (fintrack_desktop h "__main__" Install.w0).2
  = "/home/user/finia" :: sys_path Install.w0 ∧
  (∀ (i : nat) (s : string), sys_path Install.w0 !! i = Some s →
     sys_path (fintrack_desktop h "__main__" Install.w0).2 !! S i = Some s) ∧
  length (sys_path (fintrack_desktop h "__main__" Install.w0).2)
  = S (length (sys_path Install.w0)).
Proof.
  apply (sys_path_only_prepended (Install.installed (ret (VInt 0))) "__main__"
           Install.w0 {| anchor := "/"; tail := ["home"; "user"; "finia"] |}).
  - reflexivity.
  - apply installed_keeps_sys_path.
Defined.

Lemma replicate_app_cons {A} (n : nat) (x : A) (l : list A) :
  replicate n x ++ x :: l = x :: replicate n x ++ l.
Proof. induction n as [|n IH]; [done|]. cbn [replicate app]. by rewrite IH. Qed.

Lemma repeat_setup_ok (h : host) (root : Path) (n : nat) (w : world) :
  parents_getitem (resolve h (file h)) 1 = Ok root →
  repeat_setup h n w
  = (Ok (), set_sys_path (replicate n (Path_str root) ++ sys_path w) w).
Proof.
  intros Hroot. revert w. induction n as [|n IH]; intros w.
  - by destruct w.
  - cbn [repeat_setup]. unfold bind. rewrite (path_setup_ok _ _ _ Hroot), IH.
    rewrite set_sys_path_twice. cbn [sys_path set_sys_path].
    do 2 f_equal. apply replicate_app_cons.
Qed.

(** C9. Run [n] times in a row in one process, the path setup computes
    the same root each time, in whatever world it runs, and inserts it
    in front again without looking for an earlier copy: [n] copies of the
    root end up in front of the original entries, so after every
    invocation the root is at index 0. *)
Theorem repeated_setup (h : host) (w : world) (root : Path) (n : nat) :
  parents_getitem (resolve h (file h)) 1 = Ok root →
  (∀ w', _repo_root h w' = (Ok root, w')) ∧
  repeat_setup h n w
  = (Ok (), set_sys_path (replicate n (Path_str root) ++ sys_path w) w) ∧
  (∀ k : nat, (0 < k ≤ n)%nat →
     sys_path (repeat_setup h k w).2 !! 0%nat = Some (Path_str root)).
Proof.
  intros Hroot. split; [|split].
  - intros w'. unfold _repo_root, lift. by rewrite Hroot.
  - by apply repeat_setup_ok.
  - intros k [Hk _]. rewrite (repeat_setup_ok _ _ _ _ Hroot).
    destruct k; [lia|done].
Qed.

Lemma repeated_setup_witness :
  let h := Install.installed (ret (VInt 0)) in
  let root := {| anchor := "/"; tail := ["home"; "user"; "finia"] |} in
  (∀ w', _repo_root h w' = (Ok root, w')) ∧
  repeat_setup h 3 Install.w0
  = (Ok (), set_sys_path (replicate 3 (Path_str root) ++ sys_path Install.w0)
              Install.w0) ∧
  (∀ k : nat, (0 < k ≤ 3)%nat →
     sys_path (repeat_setup h k Install.w0).2 !! 0%nat = Some (Path_str root)).
Proof.
  apply (repeated_setup (Install.installed (ret (VInt 0))) Install.w0
           {| anchor := "/"; tail := ["home"; "user"; "finia"] |} 3).
  reflexivity.
Defined.

(** *** How the launcher ends *)

Section Outcome.
Context (h : host) (w w0 w1 : world) (main : callable).
Hypothesis Hsetup : path_setup h w = (Ok (), w0).
Hypothesis Himport :
  import_from h "desktop.fintrack_desktop.app" "main" w0 = (Ok main, w1).

(** As the main script: whatever [main] returns leaves the launcher as
    the code of a [SystemExit], in the world [main] left. *)
Lemma launcher_returns (v : value) (w2 : world) :
  main w1 = (Ok v, w2) →
  fintrack_desktop h "__main__" w = (Raise (SystemExit v), w2).
Proof.
  intros Hmain. unfold fintrack_desktop, import_and_run, bind.
  rewrite Hsetup, Himport. cbn [String.eqb Ascii.eqb Bool.eqb]. by rewrite Hmain.
Qed.

(** As the main script: whatever [main] raises leaves the launcher as
    it is. *)
Lemma launcher_raises (e : exn) (w2 : world) :
  main w1 = (Raise e, w2) →
  fintrack_desktop h "__main__" w = (Raise e, w2).
Proof.
  intros Hmain. unfold fintrack_desktop, import_and_run, bind.
  rewrite Hsetup, Himport. cbn [String.eqb Ascii.eqb Bool.eqb]. by rewrite Hmain.
Qed.

(** Under any other name the body ends after the import. *)
Lemma launcher_imported (name : string) :
  name ≠ "__main__" →
  fintrack_desktop h name w = (Ok {| ns_main := main |}, w1).
Proof.
  intros Hname. unfold fintrack_desktop, import_and_run, bind.
  rewrite Hsetup, Himport.
  by destruct (String.eqb_spec name "__main__").
Qed.
End Outcome.

Lemma launcher_import_raises (h : host) (name : string) (w w0 w1 : world) (e : exn) :
  path_setup h w = (Ok (), w0) →
  import_from h "desktop.fintrack_desktop.app" "main" w0 = (Raise e, w1) →
  fintrack_desktop h name w = (Raise e, w1).
Proof.
  intros Hsetup Himport. unfold fintrack_desktop, import_and_run, bind.
  by rewrite Hsetup, Himport.
Qed.

(** *** Exit codes and the status the parent reads *)

Lemma wait_status_mod (c : Z) : wait_status c = c mod 256.
Proof. unfold wait_status. change 255 with (Z.ones 8). by rewrite Z.land_ones. Qed.

Lemma wait_status_range (c : Z) : 0 ≤ wait_status c ≤ 255.
Proof. rewrite wait_status_mod. pose proof (Z.mod_pos_bound c 256). lia. Qed.

Lemma PyLong_AsLong_fits (n : Z) :
  LONG_MIN ≤ n ≤ LONG_MAX → PyLong_AsLong n = n.
Proof.
  intros [Hlo Hhi]. unfold PyLong_AsLong.
  destruct (Z.leb_spec LONG_MIN n); [|lia].
  destruct (Z.leb_spec n LONG_MAX); [done|lia].
Qed.

Lemma wait_status_c_int (n : Z) : wait_status (c_int n) = n mod 256.
Proof.
  rewrite wait_status_mod. unfold c_int.
  rewrite (Z.mod_eq (n + 2 ^ 31) (2 ^ 32)) by lia.
  replace (n + 2 ^ 31 - 2 ^ 32 * ((n + 2 ^ 31) / 2 ^ 32) - 2 ^ 31)
    with (n + (- (2 ^ 24 * ((n + 2 ^ 31) / 2 ^ 32))) * 256) by lia.
  apply Z_mod_plus_full.
Qed.

Lemma run_python_SystemExit (h : host) (w w2 : world) (code : value) :
  fintrack_desktop h "__main__" w = (Raise (SystemExit code), w2) →
  run_python h w = handle_system_exit code w2.
Proof. intros Hrun. unfold run_python. by rewrite Hrun. Qed.

Lemma run_python_error (h : host) (w w2 : world) (e : exn) :
  fintrack_desktop h "__main__" w = (Raise e, w2) →
  is_SystemExit e = false →
  run_python h w
  = (match e with KeyboardInterrupt => 130 | _ => 1 end,
     write_stderr (exn_report e) w2).
Proof.
  intros Hrun Hexit. unfold run_python. rewrite Hrun. by destruct e.
Qed.

(** C3, as the code has it. When [main()] returns the integer [N], the
    launcher raises [SystemExit(N)] with [N] unchanged, whatever [N] is.
    The exit status of the process is [N] exactly when [0 <= N <= 255]:
    for an [N] that fits a C [long] the status is [N mod 256]. *)
Theorem exit_status_of_int
    (h : host) (w w0 w1 w2 : world) (main : callable) (N : Z) :
  path_setup h w = (Ok (), w0) →
  import_from h "desktop.fintrack_desktop.app" "main" w0 = (Ok main, w1) →
  main w1 = (Ok (VInt N), w2) →
  fintrack_desktop h "__main__" w = (Raise (SystemExit (VInt N)), w2) ∧
  (exit_status h w = N ↔ 0 ≤ N ≤ 255) ∧
  (LONG_MIN ≤ N ≤ LONG_MAX → exit_status h w = N mod 256).
Proof.
  intros Hsetup Himport Hmain.
  pose proof (launcher_returns _ _ _ _ _ Hsetup Himport _ _ Hmain) as Hrun.
  split; [exact Hrun|].
  assert (Hfit : LONG_MIN ≤ N ≤ LONG_MAX → exit_status h w = N mod 256).
  { intros HN. unfold exit_status. rewrite (run_python_SystemExit _ _ _ _ Hrun).
    cbn [handle_system_exit fst].
    by rewrite PyLong_AsLong_fits, wait_status_c_int. }
  split; [split|exact Hfit].
  - intros <-. apply wait_status_range.
  - intros HN. rewrite Hfit by (unfold LONG_MIN, LONG_MAX; lia).
    apply Z.mod_small. lia.
Qed.

Lemma exit_status_of_int_witness :
  fintrack_desktop (Install.installed (ret (VInt 2))) "__main__" Install.w0
  = (Raise (SystemExit (VInt 2)),
     set_sys_path ("/home/user/finia" :: sys_path Install.w0) Install.w0) ∧
  (exit_status (Install.installed (ret (VInt 2))) Install.w0 = 2 ↔ 0 ≤ 2 ≤ 255) ∧
  (LONG_MIN ≤ 2 ≤ LONG_MAX →
   exit_status (Install.installed (ret (VInt 2))) Install.w0 = 2 mod 256).
Proof.
  apply (exit_status_of_int (Install.installed (ret (VInt 2))) Install.w0
           (set_sys_path ("/home/user/finia" :: sys_path Install.w0) Install.w0)
           (set_sys_path ("/home/user/finia" :: sys_path Install.w0) Install.w0)
           (set_sys_path ("/home/user/finia" :: sys_path Install.w0) Install.w0)
           (ret (VInt 2)) 2); reflexivity.
Defined.

(** C3, as the claim has it, fails: [main()] returns the integer 256,
    the launcher raises [SystemExit(256)], the interpreter calls
    [exit(256)], and the exit status of the process is 0. *)
Lemma exit_status_of_int_counterexample :
  (ret (VInt 256) : callable) Install.w0 = (Ok (VInt 256), Install.w0) ∧
  fintrack_desktop (Install.installed (ret (VInt 256))) "__main__" Install.w0
  = (Raise (SystemExit (VInt 256)),
     set_sys_path ("/home/user/finia" :: sys_path Install.w0) Install.w0) ∧
  (run_python (Install.installed (ret (VInt 256))) Install.w0).1 = 256 ∧
  exit_status (Install.installed (ret (VInt 256))) Install.w0 = 0 ∧
  exit_status (Install.installed (ret (VInt 256))) Install.w0 ≠ 256.
Proof. repeat split; done. Qed.

(** C4. When [main()] returns [None], the launcher raises
    [SystemExit(None)] and the exit status of the process is 0. *)
Theorem exit_status_of_None
    (h : host) (w w0 w1 w2 : world) (main : callable) :
  path_setup h w = (Ok (), w0) →
  import_from h "desktop.fintrack_desktop.app" "main" w0 = (Ok main, w1) →
  main w1 = (Ok VNone, w2) →
  fintrack_desktop h "__main__" w = (Raise (SystemExit VNone), w2) ∧
  exit_status h w = 0.
Proof.
  intros Hsetup Himport Hmain.
  pose proof (launcher_returns _ _ _ _ _ Hsetup Himport _ _ Hmain) as Hrun.
  split; [exact Hrun|].
  unfold exit_status. by rewrite (run_python_SystemExit _ _ _ _ Hrun).
Qed.

Lemma exit_status_of_None_witness :
  fintrack_desktop (Install.installed (ret VNone)) "__main__" Install.w0
  = (Raise (SystemExit VNone),
     set_sys_path ("/home/user/finia" :: sys_path Install.w0) Install.w0) ∧
  exit_status (Install.installed (ret VNone)) Install.w0 = 0.
Proof.
  apply (exit_status_of_None (Install.installed (ret VNone)) Install.w0
           (set_sys_path ("/home/user/finia" :: sys_path Install.w0) Install.w0)
           (set_sys_path ("/home/user/finia" :: sys_path Install.w0) Install.w0)
           (set_sys_path ("/home/user/finia" :: sys_path Install.w0) Install.w0)
           (ret VNone)); reflexivity.
Defined.

(** C5, as the code has it. When [main()] returns a value that is
    neither [None] nor an [int], the launcher raises [SystemExit] with
    that value; the interpreter writes the value's [str()] to the
    standard error stream and the exit status of the process is 1. *)
Theorem exit_status_of_other
    (h : host) (w w0 w1 w2 : world) (main : callable) (v : value) :
  path_setup h w = (Ok (), w0) →
  import_from h "desktop.fintrack_desktop.app" "main" w0 = (Ok main, w1) →
  main w1 = (Ok v, w2) →
  v ≠ VNone →
  is_int v = false →
  fintrack_desktop h "__main__" w = (Raise (SystemExit v), w2) ∧
  exit_status h w = 1 ∧
  (run_python h w).2 = write_stderr (value_str v) w2.
Proof.
  intros Hsetup Himport Hmain Hnone Hint.
  pose proof (launcher_returns _ _ _ _ _ Hsetup Himport _ _ Hmain) as Hrun.
  split; [exact Hrun|].
  unfold exit_status. rewrite (run_python_SystemExit _ _ _ _ Hrun).
  by destruct v.
Qed.

Lemma exit_status_of_other_witness :
  fintrack_desktop (Install.installed (ret (VStr "failed"))) "__main__" Install.w0
  = (Raise (SystemExit (VStr "failed")),
     set_sys_path ("/home/user/finia" :: sys_path Install.w0) Install.w0) ∧
  exit_status (Install.installed (ret (VStr "failed"))) Install.w0 = 1 ∧
  (run_python (Install.installed (ret (VStr "failed"))) Install.w0).2
  = write_stderr (value_str (VStr "failed"))
      (set_sys_path ("/home/user/finia" :: sys_path Install.w0) Install.w0).
Proof.
  apply (exit_status_of_other (Install.installed (ret (VStr "failed"))) Install.w0
           (set_sys_path ("/home/user/finia" :: sys_path Install.w0) Install.w0)
           (set_sys_path ("/home/user/finia" :: sys_path Install.w0) Install.w0)
           (set_sys_path ("/home/user/finia" :: sys_path Install.w0) Install.w0)
           (ret (VStr "failed")) (VStr "failed"));
    [reflexivity | reflexivity | reflexivity | discriminate | reflexivity].
Defined.

(** C5, as the claim has it, fails: [main()] returns the string
    ["failed"], which is neither [None] nor an [int]; the exit status of
    the process is 1, not 0, and ["failed"] is on the standard error
    stream. *)
Lemma exit_status_of_other_counterexample :
  (ret (VStr "failed") : callable) Install.w0 = (Ok (VStr "failed"), Install.w0) ∧
  is_int (VStr "failed") = false ∧
  VStr "failed" ≠ VNone ∧
  exit_status (Install.installed (ret (VStr "failed"))) Install.w0 = 1 ∧
  exit_status (Install.installed (ret (VStr "failed"))) Install.w0 ≠ 0 ∧
  stderr (run_python (Install.installed (ret (VStr "failed"))) Install.w0).2
  = ["failed"].
Proof. repeat split; done. Qed.

(** C6, as the code has it. When [main()] raises, the launcher handles
    nothing: the same exception leaves the launcher, in the world [main]
    left (the launcher has written nothing). For every exception other
    than [SystemExit] the interpreter reports it and the exit status of
    the process is not 0. A [SystemExit] raised by [main] ends the
    process the way the launcher's own does, with the status its code
    gives. *)
Theorem main_exception_propagates
    (h : host) (w w0 w1 w2 : world) (main : callable) (e : exn) :
  path_setup h w = (Ok (), w0) →
  import_from h "desktop.fintrack_desktop.app" "main" w0 = (Ok main, w1) →
  main w1 = (Raise e, w2) →
  fintrack_desktop h "__main__" w = (Raise e, w2) ∧
  (is_SystemExit e = false →
     exit_status h w ≠ 0 ∧
     (run_python h w).2 = write_stderr (exn_report e) w2) ∧
  (∀ code, e = SystemExit code → run_python h w = handle_system_exit code w2).
Proof.
  intros Hsetup Himport Hmain.
  pose proof (launcher_raises _ _ _ _ _ Hsetup Himport _ _ Hmain) as Hrun.
  split; [exact Hrun|]. split.
  - intros Hexit. unfold exit_status.
    rewrite (run_python_error _ _ _ _ Hrun Hexit). by destruct e.
  - intros code ->. by apply run_python_SystemExit.
Qed.

Lemma main_exception_propagates_witness :
  fintrack_desktop
    (Install.installed (raise (Exception "RuntimeError" "database is locked")))
    "__main__" Install.w0
  = (Raise (Exception "RuntimeError" "database is locked"),
     set_sys_path ("/home/user/finia" :: sys_path Install.w0) Install.w0) ∧
  (is_SystemExit (Exception "RuntimeError" "database is locked") = false →
     exit_status
       (Install.installed (raise (Exception "RuntimeError" "database is locked")))
       Install.w0 ≠ 0 ∧
     (run_python
        (Install.installed (raise (Exception "RuntimeError" "database is locked")))
        Install.w0).2
     = write_stderr (exn_report (Exception "RuntimeError" "database is locked"))
         (set_sys_path ("/home/user/finia" :: sys_path Install.w0) Install.w0)) ∧
  (∀ code, Exception "RuntimeError" "database is locked" = SystemExit code →
     run_python
       (Install.installed (raise (Exception "RuntimeError" "database is locked")))
       Install.w0
     = handle_system_exit code
         (set_sys_path ("/home/user/finia" :: sys_path Install.w0) Install.w0)).
Proof.
  apply (main_exception_propagates
           (Install.installed (raise (Exception "RuntimeError" "database is locked")))
           Install.w0
           (set_sys_path ("/home/user/finia" :: sys_path Install.w0) Install.w0)
           (set_sys_path ("/home/user/finia" :: sys_path Install.w0) Install.w0)
           (set_sys_path ("/home/user/finia" :: sys_path Install.w0) Install.w0)
           (raise (Exception "RuntimeError" "database is locked"))
           (Exception "RuntimeError" "database is locked"));
    reflexivity.
Defined.

(** C6, as the claim has it, fails: [main()] raises [SystemExit(0)], as
    it does when it ends with [sys.exit(0)]; the exception leaves the
    launcher unchanged and the exit status of the process is 0. *)
Lemma main_exception_propagates_counterexample :
  (raise (SystemExit (VInt 0)) : callable) Install.w0
  = (Raise (SystemExit (VInt 0)), Install.w0) ∧
  fintrack_desktop (Install.installed (raise (SystemExit (VInt 0)))) "__main__"
    Install.w0
  = (Raise (SystemExit (VInt 0)),
     set_sys_path ("/home/user/finia" :: sys_path Install.w0) Install.w0) ∧
  exit_status (Install.installed (raise (SystemExit (VInt 0)))) Install.w0 = 0.
Proof. repeat split; done. Qed.

(** C7. When the import of the application's [main] fails, the failure
    leaves the launcher at once and as it is, under whatever name the
    module runs: [main] is never reached, and the world is the one the
    failed import left, so nothing is tried again or instead. Run as the
    main script, the interpreter reports the failure and the exit status
    of the process is 1. *)
Theorem import_failure_is_fatal
    (h : host) (name : string) (w w0 w1 : world) (e : exn) :
  path_setup h w = (Ok (), w0) →
  import_from h "desktop.fintrack_desktop.app" "main" w0 = (Raise e, w1) →
  is_import_failure e = true →
  fintrack_desktop h name w = (Raise e, w1) ∧
  run_python h w = (1, write_stderr (exn_report e) w1) ∧
  exit_status h w = 1.
Proof.
  intros Hsetup Himport Hfail.
  split; [by apply (launcher_import_raises _ _ _ w0)|].
  pose proof (launcher_import_raises _ "__main__" _ _ _ _ Hsetup Himport) as Hrun.
  assert (Hexit : is_SystemExit e = false) by by destruct e.
  unfold exit_status. rewrite (run_python_error _ _ _ _ Hrun Hexit).
  by destruct e.
Qed.

Lemma import_failure_is_fatal_witness :
  fintrack_desktop Install.no_app "__main__" Install.w0
  = (Raise (ModuleNotFoundError "desktop"),
     set_sys_path ("/home/user/finia" :: sys_path Install.w0) Install.w0) ∧
  run_python Install.no_app Install.w0
  = (1, write_stderr (exn_report (ModuleNotFoundError "desktop"))
          (set_sys_path ("/home/user/finia" :: sys_path Install.w0) Install.w0)) ∧
  exit_status Install.no_app Install.w0 = 1.
Proof.
  apply (import_failure_is_fatal Install.no_app "__main__" Install.w0
           (set_sys_path ("/home/user/finia" :: sys_path Install.w0) Install.w0)
           (set_sys_path ("/home/user/finia" :: sys_path Install.w0) Install.w0)
           (ModuleNotFoundError "desktop")); reflexivity.
Defined.

(** C10. Imported under a name other than ["__main__"], the module still
    puts the root in front of [sys.path] and imports [main] with that
    search path; its body then ends normally with [main] bound in its
    namespace. The world it leaves is the one the import left, whatever
    calling [main] would do: [main] is not called, and no [SystemExit]
    is raised. *)
Theorem imported_not_run
    (h : host) (name : string) (w w1 : world) (root : Path) (main : callable) :
  name ≠ "__main__" →
  parents_getitem (resolve h (file h)) 1 = Ok root →
  import_from h "desktop.fintrack_desktop.app" "main"
    (set_sys_path (Path_str root :: sys_path w) w) = (Ok main, w1) →
  path_setup h w = (Ok (), set_sys_path (Path_str root :: sys_path w) w) ∧
  fintrack_desktop h name w = (Ok {| ns_main := main |}, w1).
Proof.
  intros Hname Hroot Himport.
  pose proof (path_setup_ok h w root Hroot) as Hsetup.
  split; [exact Hsetup|].
  apply (launcher_imported h w _ w1 main Hsetup Himport).
  exact Hname.
Qed.

Lemma imported_not_run_witness :
  path_setup (Install.installed Install.noisy_main) Install.w0
  = (Ok (), set_sys_path ("/home/user/finia" :: sys_path Install.w0) Install.w0) ∧
  fintrack_desktop (Install.installed Install.noisy_main) "fintrack_desktop" Install.w0
  = (Ok {| ns_main := Install.noisy_main |},
     {| sys_path := "/home/user/finia" :: sys_path Install.w0; stderr := [] |}).
Proof.
  apply (imported_not_run (Install.installed Install.noisy_main) "fintrack_desktop"
           Install.w0 _ {| anchor := "/"; tail := ["home"; "user"; "finia"] |});
    [discriminate | reflexivity | reflexivity].
Defined.

(** *** Further properties of the module body *)

Lemma main_script_raises (h : host) (w : world) :
  ∃ e w', fintrack_desktop h "__main__" w = (Raise e, w').
Proof.
  unfold fintrack_desktop, import_and_run, bind.
  destruct (path_setup h w) as [[[]|e] w0]; [|by eauto].
  destruct (import_from h _ _ w0) as [[main|e] w1]; [|by eauto].
  cbn [String.eqb Ascii.eqb Bool.eqb].
  destruct (main w1) as [[v|e] w2]; by eauto.
Qed.

Lemma path_setup_stderr (h : host) (w : world) :
  stderr (path_setup h w).2 = stderr w.
Proof.
  unfold path_setup, bind, _repo_root, lift.
  by destruct (parents_getitem _ _).
Qed.

Lemma installed_keeps_stderr (v : value) :
  extern_keeps_stderr (Install.installed (ret v)).
Proof.
  intros m n w. cbn [import_from Install.installed]. unfold Install.import_app.
  destruct (existsb _ _); [|done].
  destruct (String.eqb m _); [|done].
  destruct (String.eqb n _); [|done].
  split; [done|]. by intros f [= <-].
Qed.

(** X1. A launcher whose resolved location has fewer than two components
    has no root to compute: under any name the module body raises
    [IndexError] before anything else happens. The world is untouched
    ([sys.path] is not changed and the import is not attempted), and as
    the main script the exit status of the process is 1. *)
Theorem no_root_nothing_done (h : host) (name : string) (w : world) :
  (length (tail (resolve h (file h))) < 2)%nat →
  fintrack_desktop h name w = (Raise (IndexError 1), w) ∧
  run_python h w = (1, write_stderr "IndexError: 1" w) ∧
  exit_status h w = 1.
Proof.
  intros Hshort.
  assert (Hrun : ∀ name', fintrack_desktop h name' w = (Raise (IndexError 1), w)).
  { intros name'. unfold fintrack_desktop, bind.
    by rewrite (path_setup_raise _ _ _ (parents_1_short _ Hshort)). }
  split; [apply Hrun|].
  unfold exit_status.
  by rewrite (run_python_error _ _ _ _ (Hrun "__main__") eq_refl).
Qed.

Lemma no_root_nothing_done_witness :
  fintrack_desktop (Install.at_fs_root Install.noisy_main) "__main__" Install.w0
  = (Raise (IndexError 1), Install.w0) ∧
  run_python (Install.at_fs_root Install.noisy_main) Install.w0
  = (1, write_stderr "IndexError: 1" Install.w0) ∧
  exit_status (Install.at_fs_root Install.noisy_main) Install.w0 = 1.
Proof.
  apply (no_root_nothing_done (Install.at_fs_root Install.noisy_main) "__main__"
           Install.w0).
  cbn. lia.
Defined.

(** X2. Run as the main script, the module body never ends normally. It
    ends with the first exception in this order: the one raised while
    computing the root, the one raised by the import, the one raised by
    [main()], and otherwise the [SystemExit] that carries what [main()]
    returned; the world at the end is the one that step left. *)
Theorem main_script_outcome (h : host) (w : world) :
  ∃ e w', fintrack_desktop h "__main__" w = (Raise e, w') ∧
    (path_setup h w = (Raise e, w') ∨
     ∃ w0, path_setup h w = (Ok (), w0) ∧
       (import_from h "desktop.fintrack_desktop.app" "main" w0 = (Raise e, w') ∨
        ∃ main w1,
          import_from h "desktop.fintrack_desktop.app" "main" w0 = (Ok main, w1) ∧
          (main w1 = (Raise e, w') ∨
           ∃ v, main w1 = (Ok v, w') ∧ e = SystemExit v))).
Proof.
  destruct (path_setup h w) as [[[]|e] w0] eqn:Hsetup.
  - destruct (import_from h "desktop.fintrack_desktop.app" "main" w0)
      as [[main|e] w1] eqn:Himport.
    + destruct (main w1) as [[v|e] w2] eqn:Hmain.
      * exists (SystemExit v), w2. split.
        { by apply (launcher_returns h w w0 w1 main). }
        right. exists w0. split; [done|]. right. exists main, w1.
        split; [done|]. right. by exists v.
      * exists e, w2. split.
        { by apply (launcher_raises h w w0 w1 main). }
        right. exists w0. split; [done|]. right. exists main, w1.
        split; [done|]. by left.
    + exists e, w1. split.
      { by apply (launcher_import_raises h _ w w0 w1). }
      right. exists w0. split; [done|]. by left.
  - exists e, w0. split; [|by left].
    unfold fintrack_desktop, bind. by rewrite Hsetup.
Qed.

(** X3. The launcher writes nothing itself: when neither the import of
    the application nor its entry point writes to the standard error
    stream, the stream is after the module body what it was before,
    under any name and however the body ends. *)
Theorem launcher_writes_nothing (h : host) (name : string) (w : world) :
  extern_keeps_stderr h →
  stderr (fintrack_desktop h name w).2 = stderr w.
Proof.
  intros Hext. unfold fintrack_desktop, bind.
  pose proof (path_setup_stderr h w) as Hsetup.
  destruct (path_setup h w) as [[[]|e] w0]; [|exact Hsetup].
  cbn [snd] in Hsetup. rewrite <- Hsetup.
  unfold import_and_run, bind.
  destruct (Hext "desktop.fintrack_desktop.app" "main" w0) as [Himp Hmain].
  destruct (import_from h _ _ w0) as [[main|e] w1]; [|exact Himp].
  cbn [fst snd] in Himp, Hmain.
  destruct (String.eqb name "__main__"); [|exact Himp].
  specialize (Hmain main eq_refl w1).
  destruct (main w1) as [[v|e] w2]; unfold raise; cbn [snd] in Hmain |- *;
    by rewrite Hmain.
Qed.

Lemma launcher_writes_nothing_witness :
  stderr (fintrack_desktop (Install.installed (ret (VInt 2))) "__main__" Install.w0).2
  = stderr Install.w0.
Proof.
  apply (launcher_writes_nothing (Install.installed (ret (VInt 2))) "__main__"
           Install.w0).
  apply installed_keeps_stderr.
Defined.

Lemma PyLong_AsLong_overflow (n : Z) :
  ¬ (LONG_MIN ≤ n ≤ LONG_MAX) → PyLong_AsLong n = -1.
Proof.
  intros Hout. unfold PyLong_AsLong.
  destruct (Z.leb_spec LONG_MIN n); [|done].
  destruct (Z.leb_spec n LONG_MAX); [lia|done].
Qed.

Lemma handle_system_exit_zero (code : value) (w : world) :
  wait_status (handle_system_exit code w).1 = 0 ↔ zero_code code.
Proof.
  unfold zero_code. destruct code as [|b|n|s|s]; cbn [handle_system_exit fst].
  - split; [by left|done].
  - destruct b; split; try done.
    + intros [?|[?|(n & ? & _)]]; done.
    + by right; left.
  - destruct (decide (LONG_MIN ≤ n ≤ LONG_MAX)) as [Hfit|Hout].
    + rewrite (PyLong_AsLong_fits _ Hfit), wait_status_c_int. split.
      * intros Hmod. right; right. by exists n.
      * intros [?|[?|(n' & [= <-] & _ & Hmod)]]; done.
    + rewrite (PyLong_AsLong_overflow _ Hout). split; [done|].
      intros [?|[?|(n' & [= <-] & Hfit & _)]]; done.
  - split; [done|]. intros [?|[?|(n & ? & _)]]; done.
  - split; [done|]. intros [?|[?|(n & ? & _)]]; done.
Qed.

(** X4. The process that runs the launcher ends in status 0 exactly when
    the module body ends with a [SystemExit] whose code is [None],
    [False], or an integer that fits a C [long] and is a multiple of 256.
    A root that cannot be computed, an import that fails and an entry
    point that fails in any other way never give status 0. *)
Theorem exit_status_zero (h : host) (w : world) :
  exit_status h w = 0 ↔
  ∃ code w',
    fintrack_desktop h "__main__" w = (Raise (SystemExit code), w') ∧
    zero_code code.
Proof.
  unfold exit_status. split.
  - destruct (main_script_raises h w) as (e & w' & Hrun).
    destruct (is_SystemExit e) eqn:Hexit.
    + destruct e as [code| | | | |]; try done.
      rewrite (run_python_SystemExit _ _ _ _ Hrun).
      intros Hzero. exists code, w'. split; [done|].
      by apply (handle_system_exit_zero code w').
    + rewrite (run_python_error _ _ _ _ Hrun Hexit). by destruct e.
  - intros (code & w' & Hrun & Hzero).
    rewrite (run_python_SystemExit _ _ _ _ Hrun).
    by apply handle_system_exit_zero.
Qed.

(** X5. A root the launcher computes is an ancestor of its own resolved
    location, exactly two components up: it has the location's anchor,
    and the location's components are the root's followed by two more
    (the launcher's directory and its file name). *)
Theorem root_two_components_up (h : host) (w : world) (root : Path) :
  (_repo_root h w).1 = Ok root →
  anchor root = anchor (resolve h (file h)) ∧
  ∃ d f, tail (resolve h (file h)) = tail root ++ [d; f].
Proof.
  unfold _repo_root, lift, parents_getitem. cbn [fst].
  set (t := tail (resolve h (file h))).
  destruct (Z.leb_spec (Z.of_nat (length t)) 1) as [|Hlen]; [done|].
  destruct (Z.ltb_spec 1 (- Z.of_nat (length t))); [done|].
  cbn [orb]. destruct (Z.ltb_spec 1 0); [lia|].
  intros [= <-]. cbn [anchor tail]. split; [done|].
  replace (Z.to_nat (Z.of_nat (length t) - 1 - 1)) with (length t - 2)%nat by lia.
  assert (Hdrop : length (drop (length t - 2) t) = 2%nat)
    by (rewrite length_drop; lia).
  destruct (drop (length t - 2) t) as [|d [|f [|x rest]]] eqn:Hd; try done.
  exists d, f. by rewrite <- Hd, take_drop.
Qed.

Lemma root_two_components_up_witness :
  anchor {| anchor := "/"; tail := ["home"; "user"; "finia"] |}
  = anchor (resolve (Install.installed (ret VNone))
              (file (Install.installed (ret VNone)))) ∧
  ∃ d f, tail (resolve (Install.installed (ret VNone))
                 (file (Install.installed (ret VNone))))
         = tail {| anchor := "/"; tail := ["home"; "user"; "finia"] |} ++ [d; f].
Proof.
  apply (root_two_components_up (Install.installed (ret VNone)) Install.w0).
  reflexivity.
Defined.
